(** * Verification of the filament sensor plugin (octoprint_filamentsensoruniversal)

    Shallow embedding of [src/octoprint_filamentsensoruniversal/__init__.py].
    Timestamps ([time.time()]) and debounce intervals are modelled as exact
    rationals [Q]; the float rounding of [now - self._last_change_time] is
    idealised away. *)

From Stdlib Require Import ZArith QArith Lqa Lia Bool List String.
Import ListNotations.

Open Scope Q_scope.

(** ** class Debouncer *)

Module Debouncer.

(** The mutable fields of a [Debouncer] object.  [line] is not a field of
    the model: each call of the [raw] property is one read of the line, and
    its result is passed to [update] explicitly. *)
Record t := mk {
  interval : Q;
  value : bool;
  rising : bool;
  falling : bool;
  _last_value : bool;
  _last_change_time : Q
}.

(** Python's [a > b] on numbers. *)
Definition gtb (a b : Q) : bool := negb (Qle_bool a b).

(** [Debouncer.__init__(line, interval)]: [raw0] is the value read from the
    line, [created] the result of [time.time()]. *)
Definition init (raw0 : bool) (interval : Q) (created : Q) : t :=
  mk interval raw0 false false raw0 created.

(** [Debouncer.update()]: [now] is the result of [time.time()] (line 40) and
    [raw] the single read of the [raw] property (line 41). *)
Definition update (now : Q) (raw : bool) (d : t) : t :=
  let '(lv, lct) :=
    if negb (Bool.eqb raw (_last_value d)) then (raw, now)
    else (_last_value d, _last_change_time d) in
  let old_value := value d in
  let v := if gtb (now - lct) (interval d) then raw else old_value in
  mk (interval d) v (v && negb old_value) (negb v && old_value) lv lct.

(** Running [update] over a list of (timestamp, raw sample) pairs. *)
Fixpoint run (samples : list (Q * bool)) (d : t) : t :=
  match samples with
  | [] => d
  | (now, raw) :: rest => run rest (update now raw d)
  end.

(** Every intermediate debouncer state of [run], after each [update]. *)
Fixpoint trace (samples : list (Q * bool)) (d : t) : list t :=
  match samples with
  | [] => []
  | (now, raw) :: rest => let d' := update now raw d in d' :: trace rest d'
  end.

End Debouncer.

(** ** class FilamentSensorUniversal *)

Module Plugin.

(** OctoPrint events the plugin distinguishes in [on_event]; every other
    event is [OtherEvent]. *)
Inductive event :=
| PRINT_STARTED | PRINT_RESUMED | PRINT_DONE | PRINT_FAILED
| PRINT_PAUSED | PRINT_CANCELLED | ERROR | OtherEvent (name : string).

(** Calls the plugin makes on [self._printer]. *)
Inductive printer_call :=
| pause_print
| cancel_print
| commands (lines : list string).

(** Exceptions that can escape the plugin's code: an [OSError] of a gpiod
    line read, an exception raised by a [self._printer] call, and the
    [ValueError] of an [int(...)] settings property. *)
Inductive exn := ReadError | PrinterError | ValueError.

(** The values read from [self._settings] ([runout_gcode] and
    [jammed_gcode] after [splitlines()]).  The [int(...)] properties
    ([runout_pin], [runout_bounce], [runout_switch] and their jam
    counterparts) are [None] when [int()] raises [ValueError] on the stored
    value. *)
Record settings := mkSettings {
  runout_chip : string;
  jam_chip : string;
  runout_pin : option Z;
  jam_pin : option Z;
  runout_bounce : option Z;
  jam_bounce : option Z;
  runout_switch : option Z;
  jam_switch : option Z;
  runout_gcode : list string;
  jammed_gcode : list string;
  runout_pause_print : bool;
  jammed_pause_print : bool
}.

(** The gpiod call of the [try] block of [_setup_sensor] that raises
    [OSError]: [gpiod.Chip(...)] ([at_chip]), [get_line], [request] or
    [set_direction_input] ([at_line]), [set_flags] ([at_flags]), or the
    read of the line in [Debouncer.__init__] ([at_read]). *)
Inductive open_stage := at_chip | at_line | at_flags | at_read.

(** Outcome of the gpiod calls for one sensor: an [OSError] at a stage, or
    all calls succeed and the initial read gives [raw0]. *)
Inductive gpio_open :=
| os_error_at (st : open_stage)
| opened (raw0 : bool).

Definition fails_at (o : gpio_open) (st : open_stage) : bool :=
  match o, st with
  | os_error_at at_chip, at_chip | os_error_at at_line, at_line
  | os_error_at at_flags, at_flags | os_error_at at_read, at_read => true
  | _, _ => false
  end.

(** The mutable state of the plugin object, together with the log of the
    calls made on [self._printer]. *)
Record plugin := mkPlugin {
  _runout_debouncer : option Debouncer.t;
  _jam_debouncer : option Debouncer.t;
  _print_running : bool;
  printer_log : list printer_call
}.

(** State and exception monad: Python code mutates [self] and may raise; an
    exception keeps the mutations done before it. *)
Inductive result (A : Type) :=
| Ok (a : A) (s : plugin)
| Raise (e : exn) (s : plugin).
Arguments Ok {A}.
Arguments Raise {A}.

Definition M (A : Type) := plugin -> result A.

Definition ret {A} (a : A) : M A := fun s => Ok a s.
Definition bind {A B} (m : M A) (k : A -> M B) : M B :=
  fun s => match m s with
           | Ok a s' => k a s'
           | Raise e s' => Raise e s'
           end.
Definition raise {A} (e : exn) : M A := fun s => Raise e s.
Definition get : M plugin := fun s => Ok s s.

Notation "x <- c ;; k" := (bind c (fun x => k))
  (at level 61, c at next level, right associativity).
Notation "c ;;; k" := (bind c (fun _ => k))
  (at level 61, right associativity).

Definition state_of {A} (r : result A) : plugin :=
  match r with Ok _ s => s | Raise _ s => s end.

Definition set_runout_debouncer (d : option Debouncer.t) : M unit :=
  fun s => Ok tt (mkPlugin d (_jam_debouncer s) (_print_running s) (printer_log s)).
Definition set_jam_debouncer (d : option Debouncer.t) : M unit :=
  fun s => Ok tt (mkPlugin (_runout_debouncer s) d (_print_running s) (printer_log s)).
Definition set_print_running (b : bool) : M unit :=
  fun s => Ok tt (mkPlugin (_runout_debouncer s) (_jam_debouncer s) b (printer_log s)).

(** Logging has no effect on the modelled state. *)
Definition log_info : M unit := ret tt.

Section Code.

Variable cfg : settings.
(** Which printer calls raise an exception (after being issued). *)
Variable printer_raises : printer_call -> bool.

Definition printer (c : printer_call) : M unit :=
  fun s =>
    let s' := mkPlugin (_runout_debouncer s) (_jam_debouncer s)
                (_print_running s) (printer_log s ++ [c]) in
    if printer_raises c then Raise PrinterError s' else Ok tt s'.

(** A read of a GPIO line: [None] is a read that raises [OSError]. *)
Definition read_line (sample : option bool) : M bool :=
  match sample with
  | Some b => ret b
  | None => raise ReadError
  end.

Definition runout_sensor_enabled : bool := negb (String.eqb (runout_chip cfg) "").
Definition jam_sensor_enabled : bool := negb (String.eqb (jam_chip cfg) "").

(** [runout_sensor] property. *)
Definition runout_sensor (s : plugin) : bool :=
  match _runout_debouncer s with
  | None => false
  | Some d => negb (Debouncer.value d)
  end.

(** [jam_sensor] property. *)
Definition jam_sensor (s : plugin) : bool :=
  match _jam_debouncer s with
  | None => false
  | Some d => Debouncer.value d
  end.

(** [api_get_filament]: the [status] field of the JSON answer. *)
Definition api_get_filament (s : plugin) : string :=
  if runout_sensor_enabled then (if runout_sensor s then "0" else "1")%string
  else "-1"%string.

(** [api_get_jammed]. *)
Definition api_get_jammed (s : plugin) : string :=
  if jam_sensor_enabled then (if jam_sensor s then "1" else "0")%string
  else "-1"%string.

(** An [int(...)] settings property. *)
Definition int_setting (v : option Z) : M Z :=
  match v with
  | Some z => ret z
  | None => raise ValueError
  end.

(** The body of [if self.runout_sensor_enabled: try: ... except OSError:]
    (and of its jam counterpart), in the order of the source: [gpiod.Chip],
    then [int(pin)] and [get_line]/[request]/[set_direction_input], then
    [int(switch)] and [set_flags], then [int(bounce)] and the
    [Debouncer(...)] constructor, whose line read is followed by its own
    [time.time()] ([now]).  An [OSError] is caught (and logged); a
    [ValueError] is not caught by [except OSError] and escapes. *)
Definition setup_line (o : gpio_open) (pin switch bounce : option Z) (now : Q)
    (install : option Debouncer.t -> M unit) : M unit :=
  if fails_at o at_chip then ret tt else
  _ <- int_setting pin;;
  if fails_at o at_line then ret tt else
  _ <- int_setting switch;;
  if fails_at o at_flags then ret tt else
  b <- int_setting bounce;;
  match o with
  | opened raw0 => install (Some (Debouncer.init raw0 (inject_Z b) now))
  | os_error_at _ => ret tt
  end.

(** [_setup_sensor]: [runout_open] ([jam_open]) is the outcome of the gpiod
    calls for the runout (jam) line, [runout_now] ([jam_now]) the
    [time.time()] of its [Debouncer] constructor.  Closing the old chips is
    not modelled. *)
Definition _setup_sensor (runout_open jam_open : gpio_open) (runout_now jam_now : Q)
    : M unit :=
  set_runout_debouncer None;;;
  set_jam_debouncer None;;;
  (if runout_sensor_enabled then
     setup_line runout_open (runout_pin cfg) (runout_switch cfg) (runout_bounce cfg)
       runout_now set_runout_debouncer
   else ret tt);;;
  (if jam_sensor_enabled then
     setup_line jam_open (jam_pin cfg) (jam_switch cfg) (jam_bounce cfg)
       jam_now set_jam_debouncer
   else ret tt).

(** [on_event(event, payload)]. *)
Definition on_event (e : event) : M unit :=
  (match e with
   | PRINT_STARTED =>
       s <- get;;
       (if runout_sensor s then log_info;;; printer cancel_print else ret tt);;;
       s' <- get;;
       (if jam_sensor s' then log_info;;; printer cancel_print else ret tt)
   | _ => ret tt
   end);;;
  match e with
  | PRINT_STARTED | PRINT_RESUMED => set_print_running true
  | PRINT_DONE | PRINT_FAILED | PRINT_PAUSED | PRINT_CANCELLED | ERROR =>
      set_print_running false
  | OtherEvent _ => ret tt
  end.

(** [runout_handler]. *)
Definition runout_handler : M unit :=
  log_info;;;
  s <- get;;
  if _print_running s then
    (if runout_pause_print cfg then
       log_info;;; printer pause_print;;; set_print_running false
     else ret tt);;;
    (match runout_gcode cfg with
     | [] => ret tt
     | gcode => log_info;;; printer (commands gcode)
     end)
  else ret tt.

(** [jam_handler]. *)
Definition jam_handler : M unit :=
  log_info;;;
  s <- get;;
  if _print_running s then
    (if jammed_pause_print cfg then
       log_info;;; printer pause_print;;; set_print_running false
     else ret tt);;;
    (match jammed_gcode cfg with
     | [] => ret tt
     | gcode => log_info;;; printer (commands gcode)
     end)
  else ret tt.

(** What the outside world supplies to one iteration of the polling loop:
    the [time.time()] of each [update] and the value each line read gives
    ([None]: the read raises [OSError]). *)
Record tick := mkTick {
  runout_now : Q;
  runout_read : option bool;
  jam_now : Q;
  jam_read : option bool
}.

(** One iteration of the [while True] body of [_sensor_thread]. *)
Definition sensor_tick (tk : tick) : M unit :=
  s <- get;;
  runout_triggered <-
    (match _runout_debouncer s with
     | None => ret false
     | Some d =>
         raw <- read_line (runout_read tk);;
         let d' := Debouncer.update (runout_now tk) raw d in
         set_runout_debouncer (Some d');;;
         ret (Debouncer.falling d')
     end);;
  s1 <- get;;
  jam_triggered <-
    (match _jam_debouncer s1 with
     | None => ret false
     | Some d =>
         raw <- read_line (jam_read tk);;
         let d' := Debouncer.update (jam_now tk) raw d in
         set_jam_debouncer (Some d');;;
         ret (Debouncer.rising d')
     end);;
  (if runout_triggered then runout_handler else ret tt);;;
  (if jam_triggered then jam_handler else ret tt).

(** [_sensor_thread], run for the iterations whose inputs are listed; the
    [while True] loop ends only by an exception escaping its body. *)
Fixpoint _sensor_thread (ticks : list tick) : M unit :=
  match ticks with
  | [] => ret tt
  | tk :: rest => sensor_tick tk;;; _sensor_thread rest
  end.

End Code.

End Plugin.

(** ** Observations used by the statements *)

Module Observe.
Import Plugin.

(** Invariant along a glitch: [value] is still [v], and a pending raw
    change away from [v] started inside the window [[a, a + dd]]. *)
Definition glitch_inv (v : bool) (a dd : Q) (d : Debouncer.t) : Prop :=
  Debouncer.value d = v /\ Debouncer.interval d = dd /\
  (Debouncer._last_value d = v \/ a <= Debouncer._last_change_time d).

Definition is_pause (c : printer_call) : bool :=
  match c with pause_print => true | _ => false end.

(** Events after which [on_event] closes the gate. *)
Definition disables (e : event) : bool :=
  match e with
  | PRINT_DONE | PRINT_FAILED | PRINT_PAUSED | PRINT_CANCELLED | ERROR => true
  | _ => false
  end.

(** Number of [pause_print()] calls in a printer log. *)
Definition count_pause (l : list printer_call) : nat := List.length (filter is_pause l).

(** The gate is closed and no pause is issued: preserved by a tick. *)
Definition quiet (n : nat) (s : plugin) : Prop :=
  _print_running s = false /\ count_pause (printer_log s) = n.

(** A configuration with both sensors on chip [gpiochip0], pausing on both
    sensors and sending no GCODE. *)
Definition cfg0 : settings :=
  mkSettings "gpiochip0" "gpiochip0" (Some 0%Z) (Some 1%Z) (Some 1%Z) (Some 1%Z)
    (Some 0%Z) (Some 0%Z) [] [] true true.

(** A printer whose calls all return normally, and one whose [pause_print]
    raises. *)
Definition printer_ok (c : printer_call) : bool := false.
Definition printer_pause_fails (c : printer_call) : bool := is_pause c.

(** The gate and the number of pauses issued so far. *)
Definition gate_log (s : plugin) : bool * nat :=
  (_print_running s, count_pause (printer_log s)).

(** A step of the plugin that, whether it returns or raises, leaves the
    gate and the number of pauses as they were. *)
Definition keeps {A : Type} (m : M A) : Prop :=
  forall y, gate_log (state_of (m y)) = gate_log y.

(** A step of the plugin that, whether it returns or raises, leaves the
    observation [f] of the state as it was. *)
Definition preserves {B A : Type} (f : plugin -> B) (m : M A) : Prop :=
  forall y, f (state_of (m y)) = f y.

(** A debouncer slot after one poll of [_sensor_thread]: a present
    debouncer is updated with the line read [read], when that read
    succeeds. *)
Definition polled (now : Q) (read : option bool) (od : option Debouncer.t)
  : option Debouncer.t :=
  match od, read with
  | Some d, Some r => Some (Debouncer.update now r d)
  | _, _ => od
  end.

(** The read of a slot's line succeeds, or the slot has no debouncer and
    its line is not read. *)
Definition read_ok (read : option bool) (od : option Debouncer.t) : bool :=
  match od, read with
  | Some _, None => false
  | _, _ => true
  end.

Definition falling_of (od : option Debouncer.t) : bool :=
  match od with Some d => Debouncer.falling d | None => false end.
Definition rising_of (od : option Debouncer.t) : bool :=
  match od with Some d => Debouncer.rising d | None => false end.

(** Each state of [Debouncer.trace] paired with the timestamp of the
    update that produced it. *)
Definition timed_trace (samples : list (Q * bool)) (d : Debouncer.t)
  : list (Q * Debouncer.t) :=
  combine (map fst samples) (Debouncer.trace samples d).

End Observe.

(** ** Properties of [Debouncer.update] *)

Module DebouncerFacts.
Import Debouncer.

Lemma gtb_true (a b : Q) : gtb a b = true <-> b < a.
Proof.
  unfold gtb. rewrite negb_true_iff. split; intro H.
  - apply Qnot_le_lt. intro Hle. apply Qle_bool_iff in Hle. congruence.
  - destruct (Qle_bool a b) eqn:E; [|reflexivity].
    apply Qle_bool_iff in E. exfalso. apply (Qlt_not_le b a); assumption.
Qed.

Lemma gtb_false (a b : Q) : gtb a b = false <-> a <= b.
Proof.
  unfold gtb. rewrite negb_false_iff. apply Qle_bool_iff.
Qed.

(** The first stage of [update]: the raw-change bookkeeping. *)
Lemma update_last_value (now : Q) (raw : bool) (d : t) :
  _last_value (update now raw d) = raw.
Proof.
  unfold update. destruct (Bool.eqb raw (_last_value d)) eqn:E; simpl; [|reflexivity].
  apply Bool.eqb_prop in E. congruence.
Qed.

Lemma update_interval (now : Q) (raw : bool) (d : t) :
  interval (update now raw d) = interval d.
Proof.
  unfold update. destruct (Bool.eqb raw (_last_value d)); reflexivity.
Qed.

Lemma update_value_cases (now : Q) (raw : bool) (d : t) :
  value (update now raw d) =
  if gtb (now - _last_change_time (update now raw d)) (interval d)
  then raw else value d.
Proof.
  unfold update. destruct (Bool.eqb raw (_last_value d)); reflexivity.
Qed.

Lemma update_edges (now : Q) (raw : bool) (d : t) :
  rising (update now raw d) = value (update now raw d) && negb (value d) /\
  falling (update now raw d) = negb (value (update now raw d)) && value d.
Proof.
  unfold update. destruct (Bool.eqb raw (_last_value d)); split; reflexivity.
Qed.

Lemma update_no_edge_if_same (now : Q) (raw : bool) (d : t) :
  value (update now raw d) = value d ->
  rising (update now raw d) = false /\ falling (update now raw d) = false.
Proof.
  destruct (update_edges now raw d) as [Hr Hf]. rewrite Hr, Hf.
  intro Heq. rewrite Heq. destruct (value d); split; reflexivity.
Qed.

End DebouncerFacts.

Module DebouncerClaims.
Import Debouncer DebouncerFacts.

(** C1: one call [update now raw d] (one raw sample [raw]) records a raw
    change (new [_last_value], [_last_change_time = now]) exactly when [raw]
    differs from [_last_value], leaves both fields alone otherwise; then
    sets [value] to [raw] exactly when [now - _last_change_time > interval]
    (with the possibly just reset [_last_change_time]) and keeps it
    otherwise; and sets [rising = value && not old] and
    [falling = not value && old] with [old] the value before the call. *)
Theorem update_spec (now : Q) (raw : bool) (d : t) :
  let d' := update now raw d in
  (raw <> _last_value d -> _last_value d' = raw /\ _last_change_time d' = now) /\
  (raw = _last_value d ->
     _last_value d' = _last_value d /\ _last_change_time d' = _last_change_time d) /\
  (interval d < now - _last_change_time d' -> value d' = raw) /\
  (now - _last_change_time d' <= interval d -> value d' = value d) /\
  rising d' = value d' && negb (value d) /\
  falling d' = negb (value d') && value d /\
  interval d' = interval d.
Proof.
  cbv zeta.
  destruct (update_edges now raw d) as [Hr Hf].
  split; [|split; [|split; [|split; [|split; [|split]]]]].
  - intro Hne. split; [apply update_last_value|]. unfold update.
    destruct (Bool.eqb raw (_last_value d)) eqn:E; [|reflexivity].
    apply Bool.eqb_prop in E. contradiction.
  - intro Heq. subst raw. unfold update. rewrite Bool.eqb_reflx. split; reflexivity.
  - intro Hlt. apply gtb_true in Hlt.
    rewrite (update_value_cases now raw d), Hlt. reflexivity.
  - intro Hle. apply gtb_false in Hle.
    rewrite (update_value_cases now raw d), Hle. reflexivity.
  - exact Hr.
  - exact Hf.
  - apply update_interval.
Qed.

(** C8: after any [update], [rising] and [falling] are not both true, and
    both are false when the update left [value] unchanged. *)
Theorem update_edges_exclusive (now : Q) (raw : bool) (d : t) :
  let d' := update now raw d in
  ~ (rising d' = true /\ falling d' = true) /\
  (value d' = value d -> rising d' = false /\ falling d' = false).
Proof.
  cbv zeta. split; [|apply update_no_edge_if_same].
  destruct (update_edges now raw d) as [Hr Hf]. rewrite Hr, Hf.
  destruct (value (update now raw d)), (value d); simpl; intros [H1 H2]; discriminate.
Qed.

(** C9: two calls of [update] with the same [now] and the same raw sample
    leave [rising] and [falling] false after the second call. *)
Theorem update_twice_no_edge (now : Q) (raw : bool) (d : t) :
  let d2 := update now raw (update now raw d) in
  rising d2 = false /\ falling d2 = false.
Proof.
  cbv zeta. set (d1 := update now raw d).
  apply update_no_edge_if_same.
  assert (Hlv : _last_value d1 = raw) by apply update_last_value.
  assert (Hlct : _last_change_time (update now raw d1) = _last_change_time d1).
  { unfold update at 1. rewrite Hlv, Bool.eqb_reflx. reflexivity. }
  assert (Hint : interval d1 = interval d) by apply update_interval.
  assert (Hv1 : value d1 =
    if gtb (now - _last_change_time d1) (interval d) then raw else value d)
    by apply update_value_cases.
  rewrite (update_value_cases now raw d1), Hlct, Hint.
  destruct (gtb (now - _last_change_time d1) (interval d)) eqn:G.
  - rewrite Hv1. reflexivity.
  - reflexivity.
Qed.

Lemma update_spec_witness :
  _last_change_time (update 5 true (init false 1 0)) = 5 /\
  value (update 5 true (init false 1 0)) = false /\
  falling (update 7 false (update 5 false (init true 1 0))) = true.
Proof.
  split; [|split].
  - apply (proj1 (update_spec 5 true (init false 1 0))). discriminate.
  - apply (proj1 (proj2 (proj2 (proj2 (update_spec 5 true (init false 1 0)))))).
    simpl. lra.
  - rewrite (proj1 (proj2 (proj2 (proj2 (proj2 (proj2
              (update_spec 7 false (update 5 false (init true 1 0))))))))).
    reflexivity.
Defined.

Lemma update_edges_exclusive_witness :
  rising (update 1 true (init true 1 0)) = false /\
  falling (update 1 true (init true 1 0)) = false.
Proof. apply (proj2 (update_edges_exclusive 1 true (init true 1 0))). reflexivity. Defined.

End DebouncerClaims.

Module DebouncerGlitch.
Import Debouncer DebouncerFacts Observe.

Lemma update_lct (now : Q) (raw : bool) (d : t) :
  _last_change_time (update now raw d) =
  if Bool.eqb raw (_last_value d) then _last_change_time d else now.
Proof.
  unfold update. destruct (Bool.eqb raw (_last_value d)); reflexivity.
Qed.

Section Glitch.

(** The stable value [v], the debounce interval [dd] and the window
    [[a, a + dd]] holding every sample that departs from [v]. *)
Variables (v : bool) (a dd : Q).


Lemma glitch_step (now : Q) (raw : bool) (d : t) :
  glitch_inv v a dd d ->
  (raw <> v -> a <= now /\ now <= a + dd) ->
  glitch_inv v a dd (update now raw d) /\
  rising (update now raw d) = false /\ falling (update now raw d) = false.
Proof.
  intros [Hv [Hi Hpend]] Hwin.
  assert (Hval : value (update now raw d) = v).
  { rewrite update_value_cases.
    destruct (Bool.eqb raw v) eqn:Erv.
    - apply Bool.eqb_prop in Erv. subst raw.
      destruct (gtb _ _); [reflexivity | exact Hv].
    - assert (Hne : raw <> v) by (intro; subst; rewrite Bool.eqb_reflx in Erv; discriminate).
      destruct (Hwin Hne) as [Ha Hb].
      assert (Hlct : a <= _last_change_time (update now raw d)).
      { rewrite update_lct. destruct (Bool.eqb raw (_last_value d)) eqn:E.
        - apply Bool.eqb_prop in E. destruct Hpend as [Hl | Hl]; [congruence | exact Hl].
        - exact Ha. }
      replace (gtb (now - _last_change_time (update now raw d)) (interval d)) with false;
        [exact Hv|].
      symmetry. apply gtb_false. rewrite Hi. lra. }
  split; [|apply update_no_edge_if_same; congruence].
  split; [exact Hval|]. split; [rewrite update_interval; exact Hi|].
  rewrite update_last_value.
  destruct (Bool.eqb raw v) eqn:Erv; [left; apply Bool.eqb_prop; exact Erv|right].
  assert (Hne : raw <> v) by (intro; subst; rewrite Bool.eqb_reflx in Erv; discriminate).
  destruct (Hwin Hne) as [Ha Hb].
  rewrite update_lct. destruct (Bool.eqb raw (_last_value d)) eqn:E.
  - apply Bool.eqb_prop in E. destruct Hpend as [Hl | Hl]; [congruence | exact Hl].
  - exact Ha.
Qed.

Lemma glitch_trace (samples : list (Q * bool)) (d : t) :
  glitch_inv v a dd d ->
  (forall now raw, In (now, raw) samples -> raw <> v -> a <= now /\ now <= a + dd) ->
  forall d', In d' (trace samples d) ->
  value d' = v /\ rising d' = false /\ falling d' = false.
Proof.
  revert d. induction samples as [|[now raw] rest IH]; intros d Hinv Hwin d' Hin.
  - destruct Hin.
  - simpl in Hin.
    destruct (glitch_step now raw d Hinv (Hwin now raw (or_introl eq_refl)))
      as [Hinv' [Hr Hf]].
    destruct Hin as [<- | Hin].
    + destruct Hinv' as [Hv _]. auto.
    + apply (IH (update now raw d) Hinv'); [|exact Hin].
      intros n r Hn. apply Hwin. right. exact Hn.
Qed.

End Glitch.

(** C2: start from a settled debouncer whose stable value and last raw
    value are both [v], with positive interval [dd]; feed it any sequence of
    timestamped samples in which every sample departing from [v] is taken
    inside one window [[a, a + dd]] of duration [dd] (an isolated glitch no
    longer than the interval).  Then at every update of the sequence, during
    and after the glitch, [value] is still [v] and [rising] and [falling]
    are false. *)
Theorem glitch_suppressed (v : bool) (a dd : Q) (d0 : t) (samples : list (Q * bool)) :
  0 < dd ->
  interval d0 = dd ->
  value d0 = v ->
  _last_value d0 = v ->
  (forall now raw, In (now, raw) samples -> raw <> v -> a <= now /\ now <= a + dd) ->
  forall d, In d (trace samples d0) ->
  value d = v /\ rising d = false /\ falling d = false.
Proof.
  intros _ Hi Hv Hl Hwin.
  apply (glitch_trace v a dd samples d0); [|exact Hwin].
  split; [exact Hv|]. split; [exact Hi|]. left; exact Hl.
Qed.

Lemma glitch_suppressed_witness :
  Forall (fun d => value d = false /\ rising d = false /\ falling d = false)
    (trace [(1, true); (3 # 2, false); (3, false)] (init false 1 0)).
Proof.
  apply Forall_forall. intros d Hd.
  apply (glitch_suppressed false 1 1 (init false 1 0)
           [(1, true); (3 # 2, false); (3, false)]);
    [lra | reflexivity | reflexivity | reflexivity | | exact Hd].
  intros now raw Hin Hne. simpl in Hin.
  destruct Hin as [Hin | [Hin | [Hin | []]]]; injection Hin as <- <-;
    [lra | contradiction | contradiction].
Defined.

End DebouncerGlitch.

Module DebouncerDegenerate.
Import Debouncer DebouncerFacts DebouncerGlitch.

(** C3 (counterexample): with interval zero, a raw sample [true] taken at
    time 1 differs from the stable value [false], yet it is not stable after
    the update at time 1 nor after the next update at time 2 (where the raw
    line is back to [false]): the change is never committed. *)
Lemma zero_interval_change_not_committed :
  interval (init false 0 0) = 0 /\
  map value (trace [(1, true); (2, false)] (init false 0 0)) = [false; false].
Proof. split; reflexivity. Qed.

(** C3 (amended): [update] is total for every interval (no error path).
    With a negative interval an update commits its raw sample at once
    (timestamps not earlier than [_last_change_time]).  With interval zero
    the update that sees a raw change keeps the old stable value, and the
    next update with a strictly later timestamp and the same raw sample
    commits it. *)
Theorem nonpositive_interval_commit (now : Q) (raw : bool) (d : t) :
  (interval d < 0 -> _last_change_time d <= now ->
     value (update now raw d) = raw) /\
  (interval d == 0 -> raw <> _last_value d ->
     value (update now raw d) = value d) /\
  (interval d == 0 -> _last_change_time d <= now ->
     forall now', now < now' -> value (update now' raw (update now raw d)) = raw).
Proof.
  split; [|split].
  - intros Hneg Hle. rewrite update_value_cases.
    replace (gtb (now - _last_change_time (update now raw d)) (interval d)) with true;
      [reflexivity|].
    symmetry. apply gtb_true. rewrite update_lct.
    destruct (Bool.eqb raw (_last_value d)); lra.
  - intros Hz Hne. rewrite update_value_cases.
    replace (gtb (now - _last_change_time (update now raw d)) (interval d)) with false;
      [reflexivity|].
    symmetry. apply gtb_false. rewrite update_lct.
    destruct (Bool.eqb raw (_last_value d)) eqn:E.
    + apply Bool.eqb_prop in E. contradiction.
    + lra.
  - intros Hz Hle now' Hlt. rewrite update_value_cases.
    replace (gtb (now' - _last_change_time (update now' raw (update now raw d)))
                 (interval (update now raw d))) with true; [reflexivity|].
    symmetry. apply gtb_true. rewrite update_interval.
    rewrite (update_lct now' raw (update now raw d)), update_last_value,
      Bool.eqb_reflx, update_lct.
    destruct (Bool.eqb raw (_last_value d)); lra.
Qed.

Lemma nonpositive_interval_commit_witness :
  value (update 1 true (init false (-1) 0)) = true /\
  value (update 1 true (init false 0 0)) = false /\
  value (update 2 true (update 1 true (init false 0 0))) = true.
Proof.
  split; [|split].
  - apply (proj1 (nonpositive_interval_commit 1 true (init false (-1) 0)));
      simpl; lra.
  - apply (proj1 (proj2 (nonpositive_interval_commit 1 true (init false 0 0))));
      simpl; [lra | discriminate].
  - apply (proj2 (proj2 (nonpositive_interval_commit 1 true (init false 0 0))));
      simpl; lra.
Defined.

End DebouncerDegenerate.

Module PluginFacts.
Import Plugin Observe.

(** Gate closed: both edge handlers return without touching the state. *)
Lemma runout_handler_inactive (cfg : settings) pr (s : plugin) :
  _print_running s = false -> runout_handler cfg pr s = Ok tt s.
Proof. intro H. cbv [runout_handler bind log_info ret get]. rewrite H. reflexivity. Qed.

Lemma jam_handler_inactive (cfg : settings) pr (s : plugin) :
  _print_running s = false -> jam_handler cfg pr s = Ok tt s.
Proof. intro H. cbv [jam_handler bind log_info ret get]. rewrite H. reflexivity. Qed.

#[local] Arguments runout_handler : simpl never.
#[local] Arguments jam_handler : simpl never.

Lemma sensor_tick_quiet (cfg : settings) pr (tk : tick) (n : nat) (s : plugin) :
  quiet n s -> quiet n (state_of (sensor_tick cfg pr tk s)).
Proof.
  intros [Hr Hc].
  cbv [sensor_tick bind get ret].
  destruct (_runout_debouncer s) as [d|] eqn:Ed.
  - destruct (runout_read tk) as [r|]; cbn; [|split; assumption].
    set (s1 := {| _runout_debouncer := Some (Debouncer.update (runout_now tk) r d);
                  _jam_debouncer := _jam_debouncer s;
                  _print_running := _print_running s;
                  printer_log := printer_log s |}).
    destruct (_jam_debouncer s) as [dj|].
    + destruct (jam_read tk) as [rj|]; cbn; [|split; assumption].
      destruct (Debouncer.falling _); cbn;
        [rewrite runout_handler_inactive by (cbn; exact Hr)|];
        (destruct (Debouncer.rising _); cbn;
         [rewrite jam_handler_inactive by (cbn; exact Hr)|]); cbn; split; assumption.
    + cbn. destruct (Debouncer.falling _); cbn;
        [rewrite runout_handler_inactive by (cbn; exact Hr)|]; cbn; split; assumption.
  - destruct (_jam_debouncer s) as [dj|].
    + destruct (jam_read tk) as [rj|]; cbn; [|split; assumption].
      destruct (Debouncer.rising _); cbn;
        [rewrite jam_handler_inactive by (cbn; exact Hr)|]; cbn; split; assumption.
    + cbn. split; assumption.
Qed.

Lemma sensor_thread_quiet (cfg : settings) pr (ticks : list tick) (n : nat) (s : plugin) :
  quiet n s -> quiet n (state_of (_sensor_thread cfg pr ticks s)).
Proof.
  revert s. induction ticks as [|tk rest IH]; intros s Hq; [exact Hq|].
  cbn [_sensor_thread]. unfold bind.
  pose proof (sensor_tick_quiet cfg pr tk n s Hq) as Hq'.
  destruct (sensor_tick cfg pr tk s) as [[] s'|e s']; [apply IH|]; exact Hq'.
Qed.

Lemma then_set_running (m : M unit) (b : bool) (s s' : plugin) :
  (m;;; set_print_running b) s = Ok tt s' -> _print_running s' = b.
Proof.
  unfold bind. destruct (m s) as [[] s1|e s1]; intro H; [|discriminate].
  injection H as <-. reflexivity.
Qed.

Lemma preserves_ret {B A} (f : plugin -> B) (a : A) : preserves f (ret a).
Proof. intro y. reflexivity. Qed.

Lemma preserves_bind {B A C} (f : plugin -> B) (m : M A) (k : A -> M C) :
  preserves f m -> (forall a, preserves f (k a)) -> preserves f (bind m k).
Proof.
  intros Hm Hk y. unfold bind. specialize (Hm y).
  destruct (m y) as [a s'|e s']; simpl in *; [rewrite Hk|]; exact Hm.
Qed.

(** A sensor whose gpiod calls raise [OSError] is never installed, whether
    a [ValueError] escapes first or not. *)
Lemma setup_line_os_error {B} (f : plugin -> B) st pin switch bounce now install :
  preserves f (setup_line (os_error_at st) pin switch bounce now install).
Proof. intro y. destruct st, pin, switch, bounce; reflexivity. Qed.

Lemma setup_line_jam_keeps_runout o pin switch bounce now :
  preserves _runout_debouncer (setup_line o pin switch bounce now set_jam_debouncer).
Proof. intro y. destruct o as [[]|r], pin, switch, bounce; reflexivity. Qed.

Lemma setup_sensor_runout_failed (cfg : settings) st jam_open runout_now jam_now s :
  _runout_debouncer
    (state_of (_setup_sensor cfg (os_error_at st) jam_open runout_now jam_now s)) = None.
Proof.
  assert (P : preserves _runout_debouncer
    (set_jam_debouncer None;;;
     (if runout_sensor_enabled cfg then
        setup_line (os_error_at st) (runout_pin cfg) (runout_switch cfg) (runout_bounce cfg)
          runout_now set_runout_debouncer
      else ret tt);;;
     (if jam_sensor_enabled cfg then
        setup_line jam_open (jam_pin cfg) (jam_switch cfg) (jam_bounce cfg)
          jam_now set_jam_debouncer
      else ret tt))).
  { apply preserves_bind; [intro; reflexivity|intros _].
    apply preserves_bind; [destruct (runout_sensor_enabled cfg);
                           [apply setup_line_os_error|apply preserves_ret]|intros _].
    destruct (jam_sensor_enabled cfg); [apply setup_line_jam_keeps_runout|apply preserves_ret]. }
  exact (P (mkPlugin None (_jam_debouncer s) (_print_running s) (printer_log s))).
Qed.

End PluginFacts.

Module PluginClaims.
Import Plugin PluginFacts Observe.


(** C4 (counterexample): a read failure of the runout line in the first
    iteration escapes [_sensor_thread] (the loop ends, the second iteration
    never runs); and an exception of [pause_print] in the runout handler,
    at the falling edge of the second iteration, escapes it as well (the
    third iteration never runs). *)
Lemma sensor_thread_not_resilient :
  let s0 := mkPlugin (Some (Debouncer.init true 1 0)) None true [] in
  _sensor_thread cfg0 printer_ok
    [mkTick 1 None 1 None; mkTick 2 (Some true) 2 None] s0 = Raise ReadError s0 /\
  exists s',
    _sensor_thread cfg0 printer_pause_fails
      [mkTick 2 (Some false) 2 None; mkTick 4 (Some false) 4 None;
       mkTick 5 (Some false) 5 None] s0
    = Raise PrinterError s'.
Proof.
  split; [reflexivity|]. eexists. vm_compute. reflexivity.
Qed.

(** C4 (amended): nothing in the polling loop catches exceptions.  An
    exception escaping one iteration escapes [_sensor_thread], so the loop
    ends and no later iteration runs.  Within an iteration: a read failure
    of the runout line raises before any state change (the previous raw
    value is kept); a read failure of the jam line raises, after the runout
    debouncer (if any) has been updated; when the reads succeed, the
    handlers run on the updated state, runout first, and an exception of
    the runout handler, or of the jam handler, is the exception of the
    iteration; and each handler raises when the gate is active and its
    [pause_print], or else its [commands(...)] call, raises. *)
Theorem sensor_thread_exceptions_escape (cfg : settings) (pr : printer_call -> bool) :
  (forall tk rest s e s',
     sensor_tick cfg pr tk s = Raise e s' ->
     _sensor_thread cfg pr (tk :: rest) s = Raise e s') /\
  (forall tk s d,
     _runout_debouncer s = Some d -> runout_read tk = None ->
     sensor_tick cfg pr tk s = Raise ReadError s) /\
  (forall tk s d,
     _runout_debouncer s = None -> _jam_debouncer s = Some d -> jam_read tk = None ->
     sensor_tick cfg pr tk s = Raise ReadError s) /\
  (forall tk s dr r dj,
     _runout_debouncer s = Some dr -> runout_read tk = Some r ->
     _jam_debouncer s = Some dj -> jam_read tk = None ->
     sensor_tick cfg pr tk s =
     Raise ReadError (mkPlugin (Some (Debouncer.update (runout_now tk) r dr)) (Some dj)
                        (_print_running s) (printer_log s))) /\
  (forall tk s,
     read_ok (runout_read tk) (_runout_debouncer s) = true ->
     read_ok (jam_read tk) (_jam_debouncer s) = true ->
     let r' := polled (runout_now tk) (runout_read tk) (_runout_debouncer s) in
     let j' := polled (jam_now tk) (jam_read tk) (_jam_debouncer s) in
     let s' := mkPlugin r' j' (_print_running s) (printer_log s) in
     sensor_tick cfg pr tk s =
       ((if falling_of r' then runout_handler cfg pr else ret tt);;;
        (if rising_of j' then jam_handler cfg pr else ret tt)) s' /\
     (forall e s'', falling_of r' = true -> runout_handler cfg pr s' = Raise e s'' ->
        sensor_tick cfg pr tk s = Raise e s'') /\
     (forall s1 e s'',
        (if falling_of r' then runout_handler cfg pr else ret tt) s' = Ok tt s1 ->
        rising_of j' = true -> jam_handler cfg pr s1 = Raise e s'' ->
        sensor_tick cfg pr tk s = Raise e s'')) /\
  (forall s, _print_running s = true ->
     (runout_pause_print cfg = true /\ pr pause_print = true) \/
     ((runout_pause_print cfg = false \/ pr pause_print = false) /\
      runout_gcode cfg <> [] /\ pr (commands (runout_gcode cfg)) = true) ->
     exists s', runout_handler cfg pr s = Raise PrinterError s') /\
  (forall s, _print_running s = true ->
     (jammed_pause_print cfg = true /\ pr pause_print = true) \/
     ((jammed_pause_print cfg = false \/ pr pause_print = false) /\
      jammed_gcode cfg <> [] /\ pr (commands (jammed_gcode cfg)) = true) ->
     exists s', jam_handler cfg pr s = Raise PrinterError s').
Proof.
  assert (Hdispatch : forall tk s,
     read_ok (runout_read tk) (_runout_debouncer s) = true ->
     read_ok (jam_read tk) (_jam_debouncer s) = true ->
     let r' := polled (runout_now tk) (runout_read tk) (_runout_debouncer s) in
     let j' := polled (jam_now tk) (jam_read tk) (_jam_debouncer s) in
     let s' := mkPlugin r' j' (_print_running s) (printer_log s) in
     sensor_tick cfg pr tk s =
       ((if falling_of r' then runout_handler cfg pr else ret tt);;;
        (if rising_of j' then jam_handler cfg pr else ret tt)) s').
  { intros [rn rr jn jr] [[dr|] [dj|] run log] Hr Hj;
      destruct rr, jr; try discriminate; reflexivity. }
  split; [|split; [|split; [|split; [|split; [|split]]]]].
  - intros tk rest s e s' H. cbn [_sensor_thread]. unfold bind. rewrite H. reflexivity.
  - intros tk s d Hd Hr. cbv [sensor_tick bind get ret]. rewrite Hd, Hr. reflexivity.
  - intros tk s d Hn Hd Hr. cbv [sensor_tick bind get ret]. rewrite Hn, Hd, Hr. reflexivity.
  - intros [rn rr jn jr] [odr odj run log] dr r dj Hd Hr Hj Hjr.
    cbn in Hd, Hr, Hj, Hjr. subst. reflexivity.
  - intros tk s Hr Hj. cbv zeta. split; [|split].
    + exact (Hdispatch tk s Hr Hj).
    + intros e s'' Hf Hh. rewrite (Hdispatch tk s Hr Hj). cbv zeta.
      unfold bind. rewrite Hf, Hh. reflexivity.
    + intros s1 e s'' H1 Hrise Hh. rewrite (Hdispatch tk s Hr Hj). cbv zeta.
      unfold bind. rewrite H1, Hrise. exact Hh.
  - intros s Hrun H. cbv [runout_handler bind log_info ret get printer set_print_running].
    rewrite Hrun.
    destruct H as [[Hp Hpr]|[Hp [Hg Hc]]].
    + rewrite Hp, Hpr. eexists. reflexivity.
    + destruct (runout_gcode cfg) as [|l ls]; [congruence|].
      destruct Hp as [Hp|Hp]; [rewrite Hp|destruct (runout_pause_print cfg); rewrite ?Hp];
        rewrite Hc; eexists; reflexivity.
  - intros s Hrun H. cbv [jam_handler bind log_info ret get printer set_print_running].
    rewrite Hrun.
    destruct H as [[Hp Hpr]|[Hp [Hg Hc]]].
    + rewrite Hp, Hpr. eexists. reflexivity.
    + destruct (jammed_gcode cfg) as [|l ls]; [congruence|].
      destruct Hp as [Hp|Hp]; [rewrite Hp|destruct (jammed_pause_print cfg); rewrite ?Hp];
        rewrite Hc; eexists; reflexivity.
Qed.

Lemma sensor_thread_exceptions_escape_witness :
  let s0 := mkPlugin (Some (Debouncer.init true 1 0)) None true [] in
  let dj := Debouncer.mk 1 false false false true 0 in
  let s2 := mkPlugin (Some (Debouncer.init true 1 0)) (Some dj) true [] in
  let cfgj := mkSettings "gpiochip0" "gpiochip0" (Some 0%Z) (Some 1%Z) (Some 1%Z)
                (Some 1%Z) (Some 0%Z) (Some 0%Z) [] ["M600"%string] true false in
  let prc := fun c => match c with commands _ => true | _ => false end in
  _sensor_thread cfg0 printer_ok [mkTick 1 None 1 None] s0 = Raise ReadError s0 /\
  sensor_tick cfg0 printer_ok (mkTick 1 None 1 None)
    (mkPlugin None (Some (Debouncer.init true 1 0)) true [])
  = Raise ReadError (mkPlugin None (Some (Debouncer.init true 1 0)) true []) /\
  sensor_tick cfg0 printer_ok (mkTick 1 (Some true) 1 None) s2
  = Raise ReadError (mkPlugin (Some (Debouncer.update 1 true (Debouncer.init true 1 0)))
                       (Some dj) true []) /\
  exists s', sensor_tick cfgj prc (mkTick 2 (Some true) 2 (Some true)) s2
             = Raise PrinterError s'.
Proof.
  cbv zeta.
  destruct (sensor_thread_exceptions_escape cfg0 printer_ok) as [H1 [H2 [H3 [H4 _]]]].
  split; [|split; [|split]].
  - apply H1. apply (H2 _ _ (Debouncer.init true 1 0)); reflexivity.
  - apply (H3 _ _ (Debouncer.init true 1 0)); reflexivity.
  - apply (H4 (mkTick 1 (Some true) 1 None)
              (mkPlugin (Some (Debouncer.init true 1 0))
                 (Some (Debouncer.mk 1 false false false true 0)) true [])
              (Debouncer.init true 1 0) true (Debouncer.mk 1 false false false true 0));
      reflexivity.
  - destruct (sensor_thread_exceptions_escape
                (mkSettings "gpiochip0" "gpiochip0" (Some 0%Z) (Some 1%Z) (Some 1%Z)
                   (Some 1%Z) (Some 0%Z) (Some 0%Z) [] ["M600"%string] true false)
                (fun c => match c with commands _ => true | _ => false end))
      as [_ [_ [_ [_ [H5 [_ H7]]]]]].
    edestruct (H5 (mkTick 2 (Some true) 2 (Some true))
                 (mkPlugin (Some (Debouncer.init true 1 0))
                    (Some (Debouncer.mk 1 false false false true 0)) true []))
      as [_ [_ H5c]]; [reflexivity|reflexivity|].
    edestruct H7 as [s' Hs'];
      [|right; split; [right; reflexivity|split; [discriminate|reflexivity]]|];
      [|exists s'; eapply H5c; [reflexivity|reflexivity|exact Hs']].
    reflexivity.
Defined.

(** C5 (counterexample): the runout sensor is enabled ([runout_chip] is
    [gpiochip0]) but opening the chip fails with [OSError]; after
    [_setup_sensor] there is no runout debouncer and the status query
    answers ["1"] (the answer for filament present), not ["-1"]. *)
Lemma broken_sensor_reported_present :
  let s := state_of (_setup_sensor cfg0 (os_error_at at_chip) (os_error_at at_chip) 0 0
                       (mkPlugin None None false [])) in
  _runout_debouncer s = None /\ api_get_filament cfg0 s = "1"%string.
Proof. split; reflexivity. Qed.

(** C5 (amended): the status query answers ["-1"] exactly when the runout
    sensor is disabled in settings ([runout_chip] empty).  When it is
    enabled but setup failed, so that no debouncer exists, the query answers
    ["1"], the same answer as for a working sensor that detects filament;
    this is the state [_setup_sensor] leaves whenever a gpiod call of the
    runout line raises [OSError], whatever happens to the jam line. *)
Theorem api_get_filament_failed_setup (cfg : settings) (st : open_stage) (jam_open : gpio_open)
    (runout_now jam_now : Q) (s : plugin) :
  (api_get_filament cfg s = "-1"%string <-> runout_sensor_enabled cfg = false) /\
  (runout_sensor_enabled cfg = true -> _runout_debouncer s = None ->
     api_get_filament cfg s = "1"%string) /\
  (runout_sensor_enabled cfg = true ->
     let s' := state_of (_setup_sensor cfg (os_error_at st) jam_open runout_now jam_now s) in
     _runout_debouncer s' = None /\ api_get_filament cfg s' = "1"%string).
Proof.
  split; [|split].
  - unfold api_get_filament.
    destruct (runout_sensor_enabled cfg); [|split; reflexivity].
    destruct (runout_sensor s); split; intro H; discriminate.
  - intros He Hn. unfold api_get_filament, runout_sensor. rewrite He, Hn. reflexivity.
  - intro He. cbv zeta.
    assert (Hn : _runout_debouncer
                   (state_of (_setup_sensor cfg (os_error_at st) jam_open runout_now jam_now s))
                 = None).
    { exact (setup_sensor_runout_failed cfg st jam_open runout_now jam_now s). }
    split; [exact Hn|].
    unfold api_get_filament, runout_sensor. rewrite He, Hn. reflexivity.
Qed.

Lemma api_get_filament_failed_setup_witness :
  api_get_filament cfg0 (mkPlugin None None false []) = "1"%string /\
  _runout_debouncer (state_of (_setup_sensor cfg0 (os_error_at at_line) (opened true) 0 1
                                 (mkPlugin None None false []))) = None.
Proof.
  destruct (api_get_filament_failed_setup cfg0 at_line (opened true) 0 1
              (mkPlugin None None false [])) as [_ [H2 H3]].
  split.
  - apply H2; reflexivity.
  - apply H3. reflexivity.
Defined.

(** C6: with the gate active and pausing on runout enabled, and a printer
    whose [pause_print] returns normally, the runout handler issues exactly
    one [pause_print] and closes the gate; a second runout edge handled
    before the gate reopens does nothing, and no later iteration of the
    polling loop issues any further [pause_print] while no event reopens
    the gate. *)
Theorem runout_pause_once (cfg : settings) (pr : printer_call -> bool) (s : plugin)
    (ticks : list tick) :
  _print_running s = true -> runout_pause_print cfg = true -> pr pause_print = false ->
  let s1 := state_of (runout_handler cfg pr s) in
  _print_running s1 = false /\
  count_pause (printer_log s1) = S (count_pause (printer_log s)) /\
  runout_handler cfg pr s1 = Ok tt s1 /\
  _print_running (state_of (_sensor_thread cfg pr ticks s1)) = false /\
  count_pause (printer_log (state_of (_sensor_thread cfg pr ticks s1)))
    = count_pause (printer_log s1).
Proof.
  intros Hrun Hp Hpr. cbv zeta.
  assert (H1 : _print_running (state_of (runout_handler cfg pr s)) = false /\
               count_pause (printer_log (state_of (runout_handler cfg pr s)))
               = S (count_pause (printer_log s))).
  { cbv [runout_handler bind log_info ret get printer set_print_running].
    rewrite Hrun, Hp. cbn. rewrite Hpr. cbn.
    destruct (runout_gcode cfg) as [|g gs]; cbn.
    - split; [reflexivity|]. unfold count_pause.
      rewrite ?filter_app, ?length_app. cbn. lia.
    - destruct (pr (commands (g :: gs))); cbn; (split; [reflexivity|]);
        unfold count_pause; rewrite ?filter_app, ?length_app; cbn; lia. }
  destruct H1 as [H1r H1c].
  split; [exact H1r|]. split; [exact H1c|]. split.
  - apply runout_handler_inactive. exact H1r.
  - apply (sensor_thread_quiet cfg pr ticks). split; [exact H1r | reflexivity].
Qed.

Lemma runout_pause_once_witness :
  let s := mkPlugin None None true [] in
  _print_running (state_of (runout_handler cfg0 printer_ok s)) = false /\
  count_pause (printer_log (state_of (runout_handler cfg0 printer_ok s))) = 1%nat.
Proof.
  cbv zeta.
  destruct (runout_pause_once cfg0 printer_ok (mkPlugin None None true []) []
              eq_refl eq_refl eq_refl) as [H1 [H2 _]].
  split; [exact H1 | exact H2].
Defined.

(** C7: when [PRINT_STARTED] arrives while the stabilised state of the
    runout sensor already reads "no filament" or that of the jam sensor
    already reads "jammed", [on_event] itself calls [cancel_print()]. *)
Theorem print_started_cancels (pr : printer_call -> bool) (s : plugin) :
  runout_sensor s = true \/ jam_sensor s = true ->
  In cancel_print (printer_log (state_of (on_event pr PRINT_STARTED s))).
Proof.
  intro H.
  cbv [on_event bind get ret log_info printer set_print_running].
  destruct (runout_sensor s) eqn:Er.
  - cbn. destruct (pr cancel_print); cbn; [rewrite in_app_iff; simpl; auto|].
    destruct (jam_sensor _); cbn; rewrite ?in_app_iff; simpl; auto.
  - destruct H as [H | H]; [discriminate|]. cbn. rewrite H.
    destruct (pr cancel_print); cbn; rewrite in_app_iff; simpl; auto.
Qed.

Lemma print_started_cancels_witness :
  In cancel_print (printer_log (state_of (on_event printer_ok PRINT_STARTED
    (mkPlugin (Some (Debouncer.init false 1 0)) None false [])))).
Proof. apply print_started_cancels. left. reflexivity. Defined.

(** C10: an [on_event(PRINT_STARTED)] that returns normally leaves the gate
    [_print_running] true, also when it has just called [cancel_print()];
    no event outside done/failed/paused/cancelled/error closes an open gate,
    and an edge handler with pausing disabled leaves the gate as it is. *)
Theorem print_started_opens_gate (pr : printer_call -> bool) (s : plugin) :
  (forall s', on_event pr PRINT_STARTED s = Ok tt s' -> _print_running s' = true) /\
  (forall e s', disables e = false -> _print_running s = true ->
     on_event pr e s = Ok tt s' -> _print_running s' = true) /\
  (forall cfg, runout_pause_print cfg = false ->
     _print_running (state_of (runout_handler cfg pr s)) = _print_running s) /\
  (forall cfg, jammed_pause_print cfg = false ->
     _print_running (state_of (jam_handler cfg pr s)) = _print_running s).
Proof.
  split; [|split; [|split]].
  - intros s' H. exact (then_set_running _ true s s' H).
  - intros e s' Hd Hr H. destruct e; try discriminate Hd.
    + exact (then_set_running _ true s s' H).
    + exact (then_set_running _ true s s' H).
    + cbv in H. injection H as <-. exact Hr.
  - intros cfg Hp.
    cbv [runout_handler bind log_info ret get printer set_print_running].
    rewrite Hp. destruct (_print_running s) eqn:Hr; cbn; [|exact Hr].
    destruct (runout_gcode cfg) as [|g gs]; cbn; [exact Hr|].
    destruct (pr (commands (g :: gs))); cbn; exact Hr.
  - intros cfg Hp.
    cbv [jam_handler bind log_info ret get printer set_print_running].
    rewrite Hp. destruct (_print_running s) eqn:Hr; cbn; [|exact Hr].
    destruct (jammed_gcode cfg) as [|g gs]; cbn; [exact Hr|].
    destruct (pr (commands (g :: gs))); cbn; exact Hr.
Qed.

Lemma print_started_opens_gate_witness :
  let s := mkPlugin (Some (Debouncer.init false 1 0)) None false [] in
  _print_running (state_of (on_event printer_ok PRINT_STARTED s)) = true.
Proof.
  cbv zeta.
  apply (proj1 (print_started_opens_gate printer_ok
                  (mkPlugin (Some (Debouncer.init false 1 0)) None false []))).
  reflexivity.
Defined.

End PluginClaims.

(** ** Further properties of the plugin code *)

Module PluginExtras.
Import Plugin PluginFacts Observe.

(** A [ValueError] of a runout [int(...)] setting ([runout_pin], read as
    soon as the chip opens, or [runout_bounce], read once the line is
    configured) is not caught by [except OSError]: [_setup_sensor] raises,
    after having dropped both old debouncers, so the jam sensor is left
    without a debouncer even when its own settings and line are fine; the
    gate and the printer are untouched. *)
Theorem setup_sensor_value_error (cfg : settings) (runout_open jam_open : gpio_open)
    (runout_now jam_now : Q) (s : plugin) :
  runout_sensor_enabled cfg = true ->
  let s' := mkPlugin None None (_print_running s) (printer_log s) in
  (fails_at runout_open at_chip = false -> runout_pin cfg = None ->
     _setup_sensor cfg runout_open jam_open runout_now jam_now s = Raise ValueError s') /\
  (forall raw0 pin switch, runout_open = opened raw0 ->
     runout_pin cfg = Some pin -> runout_switch cfg = Some switch ->
     runout_bounce cfg = None ->
     _setup_sensor cfg runout_open jam_open runout_now jam_now s = Raise ValueError s').
Proof.
  intro He. cbv zeta. split.
  - intros Hc Hp. cbv [_setup_sensor bind set_runout_debouncer set_jam_debouncer ret].
    rewrite He. cbv [setup_line bind ret]. rewrite Hc, Hp. reflexivity.
  - intros raw0 pin switch Ho Hp Hs Hb. subst runout_open.
    cbv [_setup_sensor bind set_runout_debouncer set_jam_debouncer ret].
    rewrite He. cbv [setup_line bind ret]. rewrite Hp, Hs, Hb. reflexivity.
Qed.

Lemma setup_sensor_value_error_witness :
  let cfg := mkSettings "gpiochip0" "gpiochip0" None (Some 1%Z) (Some 1%Z) (Some 1%Z)
               (Some 0%Z) (Some 0%Z) [] [] true true in
  _setup_sensor cfg (opened true) (opened true) 0 0
    (mkPlugin (Some (Debouncer.init true 1 0)) (Some (Debouncer.init true 1 0)) true [])
  = Raise ValueError (mkPlugin None None true []).
Proof.
  cbv zeta.
  destruct (setup_sensor_value_error
              (mkSettings "gpiochip0" "gpiochip0" None (Some 1%Z) (Some 1%Z) (Some 1%Z)
                 (Some 0%Z) (Some 0%Z) [] [] true true)
              (opened true) (opened true) 0 0
              (mkPlugin (Some (Debouncer.init true 1 0)) (Some (Debouncer.init true 1 0))
                 true [])) as [H1 _]; [reflexivity|].
  apply H1; reflexivity.
Defined.

(** When both sensors are enabled, their settings are integers and all
    gpiod calls succeed, [_setup_sensor] returns normally and installs for
    each sensor a fresh debouncer: stable and last raw value the value read
    at setup, no edge, interval the [bounce] setting, and change time the
    sensor's own [time.time()] (two calls, one per sensor); the gate and
    the printer are untouched. *)
Theorem setup_sensor_success (cfg : settings) (rraw jraw : bool) (runout_now jam_now : Q)
    (rpin rsw rb jpin jsw jb : Z) (s : plugin) :
  runout_sensor_enabled cfg = true -> jam_sensor_enabled cfg = true ->
  runout_pin cfg = Some rpin -> runout_switch cfg = Some rsw -> runout_bounce cfg = Some rb ->
  jam_pin cfg = Some jpin -> jam_switch cfg = Some jsw -> jam_bounce cfg = Some jb ->
  _setup_sensor cfg (opened rraw) (opened jraw) runout_now jam_now s =
  Ok tt (mkPlugin (Some (Debouncer.mk (inject_Z rb) rraw false false rraw runout_now))
                  (Some (Debouncer.mk (inject_Z jb) jraw false false jraw jam_now))
                  (_print_running s) (printer_log s)).
Proof.
  intros Hre Hje Hrp Hrs Hrb Hjp Hjs Hjb.
  cbv [_setup_sensor bind set_runout_debouncer set_jam_debouncer ret].
  rewrite Hre, Hje. cbv [setup_line bind ret int_setting fails_at set_runout_debouncer set_jam_debouncer].
  rewrite Hrp, Hrs, Hrb, Hjp, Hjs, Hjb. reflexivity.
Qed.

Lemma setup_sensor_success_witness :
  _setup_sensor cfg0 (opened true) (opened false) 5 6 (mkPlugin None None false [])
  = Ok tt (mkPlugin (Some (Debouncer.mk 1 true false false true 5))
                    (Some (Debouncer.mk 1 false false false false 6)) false []).
Proof.
  apply (setup_sensor_success cfg0 true false 5 6 0 0 1 1 0 1); reflexivity.
Defined.

End PluginExtras.

Module DebouncerExtras.
Import Debouncer DebouncerFacts DebouncerGlitch Observe.

Lemma timed_trace_cons (now : Q) (raw : bool) (rest : list (Q * bool)) (d : t) :
  timed_trace ((now, raw) :: rest) d =
  (now, update now raw d) :: timed_trace rest (update now raw d).
Proof. reflexivity. Qed.

(** Sampling the line's last recorded raw value again changes neither the
    recorded raw value nor the change time. *)
Lemma update_same_raw (now : Q) (d : t) :
  _last_value (update now (_last_value d) d) = _last_value d /\
  _last_change_time (update now (_last_value d) d) = _last_change_time d.
Proof. unfold update. rewrite Bool.eqb_reflx. split; reflexivity. Qed.

(** A raw change to [r] observed at [t0] and then held (every later sample
    is [r]) is committed: every update whose timestamp is more than
    [interval] after [t0] leaves the stable value equal to [r]. *)
Theorem held_change_commits (d : t) (t0 : Q) (r : bool) (samples : list (Q * bool)) :
  r <> _last_value d ->
  (forall now x, In (now, x) samples -> x = r) ->
  forall now d', In (now, d') (timed_trace samples (update t0 r d)) ->
  interval d < now - t0 -> value d' = r.
Proof.
  intros Hch Hheld.
  assert (Hinv : _last_value (update t0 r d) = r /\
                 _last_change_time (update t0 r d) = t0 /\
                 interval (update t0 r d) = interval d).
  { split; [apply update_last_value|]. split; [|apply update_interval].
    rewrite update_lct. destruct (Bool.eqb r (_last_value d)) eqn:E; [|reflexivity].
    apply Bool.eqb_prop in E. contradiction. }
  generalize dependent (update t0 r d). intros d1 [Hl [Hc Hi]].
  revert d1 Hl Hc Hi.
  induction samples as [|[n x] rest IH]; intros d1 Hl Hc Hi now d' Hin Hgt;
    [destruct Hin|].
  assert (Hx : x = r) by (apply (Hheld n); left; reflexivity). subst x.
  rewrite timed_trace_cons in Hin. destruct Hin as [Heq | Hin].
  - injection Heq as <- <-. rewrite update_value_cases.
    rewrite <- Hl, (proj2 (update_same_raw n d1)), Hl, Hc, Hi.
    replace (gtb (n - t0) (interval d)) with true; [reflexivity|].
    symmetry. apply gtb_true. exact Hgt.
  - eapply (IH (fun n' x' H => Hheld n' x' (or_intror H)) (update n r d1));
      [| | | exact Hin | exact Hgt].
    + apply update_last_value.
    + rewrite <- Hl. rewrite (proj2 (update_same_raw n d1)). exact Hc.
    + rewrite update_interval. exact Hi.
Qed.

Lemma held_change_commits_witness :
  Forall (fun p => 1 < fst p - 0 -> value (snd p) = true)
    (timed_trace [(1 # 2, true); (2, true)] (update 0 true (init false 1 0))).
Proof.
  apply Forall_forall. intros [n d'] Hin Hgt.
  apply (held_change_commits (init false 1 0) 0 true [(1 # 2, true); (2, true)]
           ltac:(discriminate)) with (now := n); [| exact Hin | exact Hgt].
  intros now x H. simpl in H.
  destruct H as [H | [H | []]]; injection H as _ <-; reflexivity.
Defined.

(** A raw change away from [_last_value] observed at [t0] is not committed
    before its interval (assumed non-negative) has elapsed: as long as every
    later sample keeps the new value and is taken no more than [interval]
    after [t0], the stable value stays what it was and no edge is
    reported. *)
Theorem no_commit_before_interval (d : t) (t0 : Q) (r : bool) (samples : list (Q * bool)) :
  0 <= interval d ->
  r <> _last_value d ->
  (forall now x, In (now, x) samples -> x = r /\ now - t0 <= interval d) ->
  forall d', In d' (update t0 r d :: trace samples (update t0 r d)) ->
  value d' = value d /\ rising d' = false /\ falling d' = false.
Proof.
  intros Hpos Hch Hwin.
  assert (Hc1 : _last_change_time (update t0 r d) = t0).
  { rewrite update_lct. destruct (Bool.eqb r (_last_value d)) eqn:E; [|reflexivity].
    apply Bool.eqb_prop in E. contradiction. }
  assert (Hv1 : value (update t0 r d) = value d).
  { rewrite update_value_cases, Hc1.
    replace (gtb (t0 - t0) (interval d)) with false; [reflexivity|].
    symmetry. apply gtb_false. lra. }
  assert (Hl1 : _last_value (update t0 r d) = r) by apply update_last_value.
  assert (Hi1 : interval (update t0 r d) = interval d) by apply update_interval.
  intros d' [<- | Hin].
  - split; [exact Hv1|]. apply update_no_edge_if_same. exact Hv1.
  - rewrite <- Hv1. rewrite <- Hi1 in Hwin.
    set (d1 := update t0 r d) in *. clearbody d1.
    rename Hc1 into Hc, Hl1 into Hl. clear Hv1 Hi1.
    revert d1 Hc Hl Hwin Hin.
    induction samples as [|[n x] rest IH]; intros d1 Hc Hl Hwin Hin; [destruct Hin|].
    destruct (Hwin n x (or_introl eq_refl)) as [-> Hn].
    assert (Hv' : value (update n r d1) = value d1).
    { rewrite update_value_cases.
      rewrite <- Hl, (proj2 (update_same_raw n d1)), Hl, Hc.
      replace (gtb (n - t0) (interval d1)) with false; [reflexivity|].
      symmetry. apply gtb_false. exact Hn. }
    destruct Hin as [<- | Hin].
    + split; [exact Hv'|]. apply update_no_edge_if_same. exact Hv'.
    + rewrite <- Hv'.
      apply (IH (update n r d1)); [| | | exact Hin].
      * rewrite <- Hl. rewrite (proj2 (update_same_raw n d1)). exact Hc.
      * apply update_last_value.
      * intros n' x' H. rewrite update_interval. exact (Hwin n' x' (or_intror H)).
Qed.

Lemma no_commit_before_interval_witness :
  Forall (fun d' => value d' = false /\ rising d' = false /\ falling d' = false)
    (update 0 true (init false 1 0) ::
     trace [(1 # 2, true); (1, true)] (update 0 true (init false 1 0))).
Proof.
  apply Forall_forall. intros d' Hin.
  apply (no_commit_before_interval (init false 1 0) 0 true
           [(1 # 2, true); (1, true)]); [simpl; lra | discriminate | | exact Hin].
  intros now x H. simpl in H.
  destruct H as [H | [H | []]]; injection H as <- <-; simpl; split; lra || reflexivity.
Defined.

(** After any update, the stable value can differ from the last recorded
    raw value only while the latest raw change is at most [interval] old:
    once [now - _last_change_time > interval] the two agree. *)
Theorem update_pending_within_interval (now : Q) (raw : bool) (d : t) :
  let d' := update now raw d in
  value d' <> _last_value d' -> now - _last_change_time d' <= interval d'.
Proof.
  cbv zeta. intro Hne. rewrite update_interval.
  destruct (gtb (now - _last_change_time (update now raw d)) (interval d)) eqn:G.
  - exfalso. apply Hne. rewrite update_value_cases, G, update_last_value. reflexivity.
  - apply gtb_false. exact G.
Qed.

Lemma update_pending_within_interval_witness :
  2 - _last_change_time (update 2 true (init false 1 0))
    <= interval (update 2 true (init false 1 0)).
Proof. apply update_pending_within_interval. discriminate. Defined.

End DebouncerExtras.

Module PluginLoopExtras.
Import Plugin PluginFacts Observe.

#[local] Arguments runout_handler : simpl never.
#[local] Arguments jam_handler : simpl never.

(** With pausing disabled, a handler changes neither the gate nor the
    number of pauses. *)
Lemma runout_handler_gate_log (cfg : settings) pr (s : plugin) :
  runout_pause_print cfg = false ->
  gate_log (state_of (runout_handler cfg pr s)) = gate_log s.
Proof.
  intro Hp. cbv [runout_handler bind log_info ret get printer set_print_running].
  rewrite Hp. destruct (_print_running s); cbn; [|reflexivity].
  destruct (runout_gcode cfg) as [|g gs]; cbn; [reflexivity|].
  destruct (pr (commands (g :: gs))); unfold gate_log, count_pause; cbn;
    rewrite filter_app, length_app; cbn; f_equal; lia.
Qed.

Lemma jam_handler_gate_log (cfg : settings) pr (s : plugin) :
  jammed_pause_print cfg = false ->
  gate_log (state_of (jam_handler cfg pr s)) = gate_log s.
Proof.
  intro Hp. cbv [jam_handler bind log_info ret get printer set_print_running].
  rewrite Hp. destruct (_print_running s); cbn; [|reflexivity].
  destruct (jammed_gcode cfg) as [|g gs]; cbn; [reflexivity|].
  destruct (pr (commands (g :: gs))); unfold gate_log, count_pause; cbn;
    rewrite filter_app, length_app; cbn; f_equal; lia.
Qed.

Lemma keeps_ret {A} (a : A) : keeps (ret a).
Proof. intro y. reflexivity. Qed.

Lemma keeps_bind {A B} (m : M A) (k : A -> M B) :
  keeps m -> (forall a, keeps (k a)) -> keeps (bind m k).
Proof.
  intros Hm Hk y. unfold bind. specialize (Hm y).
  destruct (m y) as [a y'|e y']; cbn in *; [rewrite Hk|]; exact Hm.
Qed.

Lemma sensor_tick_gate_log (cfg : settings) pr (tk : tick) :
  keeps (runout_handler cfg pr) -> keeps (jam_handler cfg pr) ->
  keeps (sensor_tick cfg pr tk).
Proof.
  intros HR HJ. unfold sensor_tick.
  apply keeps_bind; [intro y; reflexivity | intros s0].
  apply keeps_bind.
  { destruct (_runout_debouncer s0); [|apply keeps_ret].
    apply keeps_bind;
      [destruct (runout_read tk); intro y; reflexivity | intro raw].
    apply keeps_bind; [intro y; reflexivity | intros _; apply keeps_ret]. }
  intro rt. apply keeps_bind; [intro y; reflexivity | intros s1].
  apply keeps_bind.
  { destruct (_jam_debouncer s1); [|apply keeps_ret].
    apply keeps_bind;
      [destruct (jam_read tk); intro y; reflexivity | intro raw].
    apply keeps_bind; [intro y; reflexivity | intros _; apply keeps_ret]. }
  intro jt. apply keeps_bind; [destruct rt; [exact HR | apply keeps_ret] | intros _].
  destruct jt; [exact HJ | apply keeps_ret].
Qed.


(** With pausing disabled for both sensors in settings, the polling loop,
    over any number of iterations and whether or not some iteration raises,
    never calls [pause_print()] and never changes the gate
    [_print_running]. *)
Theorem sensor_thread_no_pause_when_disabled (cfg : settings) (pr : printer_call -> bool)
    (ticks : list tick) (s : plugin) :
  runout_pause_print cfg = false -> jammed_pause_print cfg = false ->
  _print_running (state_of (_sensor_thread cfg pr ticks s)) = _print_running s /\
  count_pause (printer_log (state_of (_sensor_thread cfg pr ticks s)))
    = count_pause (printer_log s).
Proof.
  intros Hr Hj.
  assert (Hk : keeps (_sensor_thread cfg pr ticks)).
  { induction ticks as [|tk rest IH]; [apply keeps_ret|].
    cbn [_sensor_thread]. apply keeps_bind; [|intros _; exact IH].
    apply sensor_tick_gate_log;
      intro y; [apply runout_handler_gate_log | apply jam_handler_gate_log]; assumption. }
  specialize (Hk s). unfold gate_log in Hk. injection Hk as H1 H2. split; assumption.
Qed.

Lemma sensor_thread_no_pause_when_disabled_witness :
  let cfg := mkSettings "gpiochip0" "gpiochip0" (Some 0%Z) (Some 1%Z) (Some 1%Z) (Some 1%Z) (Some 0%Z) (Some 0%Z) [] [] false false in
  let s := mkPlugin (Some (Debouncer.init true 1 0)) None true [] in
  _print_running (state_of (_sensor_thread cfg (fun _ => false)
    [mkTick 2 (Some false) 2 None; mkTick 4 (Some false) 4 None] s)) = true.
Proof.
  cbv zeta.
  apply (sensor_thread_no_pause_when_disabled
           (mkSettings "gpiochip0" "gpiochip0" (Some 0%Z) (Some 1%Z) (Some 1%Z) (Some 1%Z) (Some 0%Z) (Some 0%Z) [] [] false false) (fun _ => false)
           [mkTick 2 (Some false) 2 None; mkTick 4 (Some false) 4 None]
           (mkPlugin (Some (Debouncer.init true 1 0)) None true []));
    reflexivity.
Defined.

(** With neither sensor set up (both disabled or both failed), the polling
    loop does nothing: any number of iterations return normally and leave
    the plugin state unchanged. *)
Theorem sensor_thread_idle_without_sensors (cfg : settings) (pr : printer_call -> bool)
    (ticks : list tick) (s : plugin) :
  _runout_debouncer s = None -> _jam_debouncer s = None ->
  _sensor_thread cfg pr ticks s = Ok tt s.
Proof.
  intros Hr Hj. induction ticks as [|tk rest IH]; [reflexivity|].
  cbn [_sensor_thread]. unfold bind at 1.
  replace (sensor_tick cfg pr tk s) with (Ok tt s); [exact IH|].
  cbv [sensor_tick bind get ret]. rewrite Hr, Hj. reflexivity.
Qed.

Lemma sensor_thread_idle_without_sensors_witness :
  _sensor_thread cfg0 printer_ok [mkTick 1 None 1 None] (mkPlugin None None true [])
  = Ok tt (mkPlugin None None true []).
Proof. apply sensor_thread_idle_without_sensors; reflexivity. Defined.

(** An iteration of the polling loop in which both reads succeed and the
    updates produce no runout falling edge and no jam rising edge only
    advances the two debouncers: it returns normally, makes no printer call
    and leaves the gate unchanged.  In particular a runout rising edge
    (filament inserted) or a jam falling edge triggers nothing. *)
Theorem sensor_tick_no_edge (cfg : settings) (pr : printer_call -> bool) (tk : tick)
    (s : plugin) (dr dj : Debouncer.t) (rr rj : bool) :
  _runout_debouncer s = Some dr -> runout_read tk = Some rr ->
  _jam_debouncer s = Some dj -> jam_read tk = Some rj ->
  Debouncer.falling (Debouncer.update (runout_now tk) rr dr) = false ->
  Debouncer.rising (Debouncer.update (jam_now tk) rj dj) = false ->
  sensor_tick cfg pr tk s =
  Ok tt (mkPlugin (Some (Debouncer.update (runout_now tk) rr dr))
                  (Some (Debouncer.update (jam_now tk) rj dj))
                  (_print_running s) (printer_log s)).
Proof.
  intros Hd Hr Hjd Hjr Hf Hri.
  cbv [sensor_tick bind get ret read_line set_runout_debouncer set_jam_debouncer].
  rewrite Hd, Hr. cbn - [Debouncer.update]. rewrite Hjd, Hjr.
  cbn - [Debouncer.update]. rewrite Hf, Hri. reflexivity.
Qed.

Lemma sensor_tick_no_edge_witness :
  let s := mkPlugin (Some (Debouncer.init false 1 0)) (Some (Debouncer.init false 1 0))
             true [] in
  printer_log (state_of (sensor_tick cfg0 printer_ok (mkTick 5 (Some true) 5 (Some false)) s))
  = [].
Proof.
  cbv zeta.
  rewrite (sensor_tick_no_edge cfg0 printer_ok (mkTick 5 (Some true) 5 (Some false))
             (mkPlugin (Some (Debouncer.init false 1 0))
                       (Some (Debouncer.init false 1 0)) true [])
             (Debouncer.init false 1 0) (Debouncer.init false 1 0) true false);
    reflexivity.
Defined.

End PluginLoopExtras.

Module EventHandlerExtras.
Import Plugin PluginFacts Observe.

Lemma jam_sensor_same (s : plugin) r p l :
  jam_sensor (mkPlugin r (_jam_debouncer s) p l) = jam_sensor s.
Proof. reflexivity. Qed.

(** [on_event(PRINT_STARTED)] with a printer whose [cancel_print()] returns
    normally: it calls [cancel_print()] once for a runout reading and once
    more for a jam reading (twice when both sensors read bad), in that
    order, makes no other printer call, and opens the gate. *)
Theorem on_event_print_started (pr : printer_call -> bool) (s : plugin) :
  pr cancel_print = false ->
  on_event pr PRINT_STARTED s =
  Ok tt (mkPlugin (_runout_debouncer s) (_jam_debouncer s) true
           (printer_log s ++ (if runout_sensor s then [cancel_print] else [])
                          ++ (if jam_sensor s then [cancel_print] else []))).
Proof.
  intro Hc. cbv [on_event bind get ret log_info printer set_print_running].
  destruct (runout_sensor s); destruct (jam_sensor s) eqn:Ej;
    cbn; rewrite ?Hc; cbn; rewrite ?jam_sensor_same, ?Ej; cbn; rewrite ?Hc; cbn;
    rewrite ?app_nil_r, <- ?app_assoc; reflexivity.
Qed.

Lemma on_event_print_started_witness :
  printer_log (state_of (on_event printer_ok PRINT_STARTED
    (mkPlugin (Some (Debouncer.init false 1 0)) (Some (Debouncer.init true 1 0)) false [])))
  = [cancel_print; cancel_print].
Proof.
  rewrite (on_event_print_started printer_ok
             (mkPlugin (Some (Debouncer.init false 1 0))
                       (Some (Debouncer.init true 1 0)) false []) eq_refl).
  reflexivity.
Defined.

(** The edge handlers with the gate open and a printer whose calls return
    normally: the printer calls are [pause_print()] if pausing is enabled,
    followed by [commands(gcode)] if the configured GCODE list is not empty;
    the gate is closed exactly when pausing is enabled. *)
Theorem handlers_gate_open (cfg : settings) (pr : printer_call -> bool) (s : plugin) :
  _print_running s = true -> pr pause_print = false ->
  (pr (commands (runout_gcode cfg)) = false ->
   runout_handler cfg pr s =
   Ok tt (mkPlugin (_runout_debouncer s) (_jam_debouncer s)
            (negb (runout_pause_print cfg))
            (printer_log s ++ (if runout_pause_print cfg then [pause_print] else [])
               ++ (match runout_gcode cfg with [] => [] | g => [commands g] end)))) /\
  (pr (commands (jammed_gcode cfg)) = false ->
   jam_handler cfg pr s =
   Ok tt (mkPlugin (_runout_debouncer s) (_jam_debouncer s)
            (negb (jammed_pause_print cfg))
            (printer_log s ++ (if jammed_pause_print cfg then [pause_print] else [])
               ++ (match jammed_gcode cfg with [] => [] | g => [commands g] end)))).
Proof.
  intros Hrun Hp. split; intro Hg.
  - cbv [runout_handler bind log_info ret get printer set_print_running].
    rewrite Hrun. destruct (runout_pause_print cfg); cbn; rewrite ?Hp; cbn;
      destruct (runout_gcode cfg) as [|g gs]; cbn; rewrite ?Hg; cbn;
      rewrite ?app_nil_r, <- ?app_assoc; try reflexivity;
      destruct s as [a b c l]; cbn in *; rewrite Hrun; reflexivity.
  - cbv [jam_handler bind log_info ret get printer set_print_running].
    rewrite Hrun. destruct (jammed_pause_print cfg); cbn; rewrite ?Hp; cbn;
      destruct (jammed_gcode cfg) as [|g gs]; cbn; rewrite ?Hg; cbn;
      rewrite ?app_nil_r, <- ?app_assoc; try reflexivity;
      destruct s as [a b c l]; cbn in *; rewrite Hrun; reflexivity.
Qed.

Lemma handlers_gate_open_witness :
  let cfg := mkSettings "gpiochip0" "gpiochip0" (Some 0%Z) (Some 1%Z) (Some 1%Z) (Some 1%Z) (Some 0%Z) (Some 0%Z) ["M600"%string] [] true false in
  printer_log (state_of (runout_handler cfg printer_ok (mkPlugin None None true [])))
  = [pause_print; commands ["M600"%string]].
Proof.
  cbv zeta.
  rewrite (proj1 (handlers_gate_open
                    (mkSettings "gpiochip0" "gpiochip0" (Some 0%Z) (Some 1%Z) (Some 1%Z) (Some 1%Z) (Some 0%Z) (Some 0%Z) ["M600"%string] [] true false)
                    printer_ok (mkPlugin None None true []) eq_refl eq_refl) eq_refl).
  reflexivity.
Defined.

(** When pausing is enabled and [pause_print()] raises, an edge handler with
    the gate open lets the exception escape right after that call: the gate
    stays open and the configured GCODE is not sent. *)
Theorem handlers_pause_raises (cfg : settings) (pr : printer_call -> bool) (s : plugin) :
  _print_running s = true -> pr pause_print = true ->
  (runout_pause_print cfg = true ->
   runout_handler cfg pr s =
   Raise PrinterError (mkPlugin (_runout_debouncer s) (_jam_debouncer s) true
                         (printer_log s ++ [pause_print]))) /\
  (jammed_pause_print cfg = true ->
   jam_handler cfg pr s =
   Raise PrinterError (mkPlugin (_runout_debouncer s) (_jam_debouncer s) true
                         (printer_log s ++ [pause_print]))).
Proof.
  intros Hrun Hp. split; intro Hc.
  - cbv [runout_handler bind log_info ret get printer set_print_running].
    rewrite Hrun, Hc. cbn. rewrite Hp. rewrite <- Hrun. reflexivity.
  - cbv [jam_handler bind log_info ret get printer set_print_running].
    rewrite Hrun, Hc. cbn. rewrite Hp. rewrite <- Hrun. reflexivity.
Qed.

Lemma handlers_pause_raises_witness :
  exists s', runout_handler cfg0 printer_pause_fails (mkPlugin None None true []) =
             Raise PrinterError s' /\ _print_running s' = true.
Proof.
  eexists. split.
  - apply (proj1 (handlers_pause_raises cfg0 printer_pause_fails
                    (mkPlugin None None true []) eq_refl eq_refl) eq_refl).
  - reflexivity.
Defined.

End EventHandlerExtras.
